(** * banzuke-app: [utils/supabase_utils.py]

    A shallow embedding of the two helpers of the module, the cached
    Supabase client factory [supabase] and the HTTP session factory
    [http_session], together with the properties of their observable
    behaviour.

    Python objects live in a store indexed by their identity, so that
    "the same instance" is equality of store addresses.  The process
    state carries [os.environ], the store, the single slot of the
    [lru_cache] that decorates [supabase], and a trace of the effects
    performed so far (environment reads, calls of [logger.debug], client
    constructions).

    What the constructor of supabase-py raises for a URL and a key is a
    parameter of the development, [client_error]; the sample runs at the
    end instantiate it with the checks of the library on the URL. *)

From Stdlib Require Import ZArith PrimFloat Ascii.
From stdpp Require Import gmap strings list.

Local Open Scope string_scope.
Local Open Scope list_scope.

(** ** Objects and the process state *)

(** The identity of an object: its address in the store. *)
Abbreviation loc := nat (only parsing).

(** The objects the module builds.  A [Client] is bound to the (url, key)
    pair handed to [create_client]; a [Retry] keeps the four settings the
    module passes; an [HTTPAdapter] refers to its retry policy; a
    [Session] holds its ordered dictionary of mounted adapters. *)
Inductive object :=
| Client (supabase_url supabase_key : string)
| Retry (total : Z) (backoff_factor : float)
        (status_forcelist : list Z) (allowed_methods : list string)
| HTTPAdapter (max_retries : loc)
| Session (adapters : list (string * loc)).

(** Effects that leave a mark outside the store: a read of the
    environment, a call of [logger.debug] (whether a record is written
    depends on the level of the logger), the construction of a client. *)
Inductive event :=
| EvGetenv (name : string)
| EvLogDebug (fmt arg : string)
| EvCreateClient (url key : string) (c : loc).

Inductive exn :=
| RuntimeError (msg : string)
| TypeError (msg : string)
| SupabaseException (msg : string)
| ValueError (value : string).

Inductive outcome (A : Type) :=
| Return (a : A)
| Raise (e : exn).
Arguments Return {A} a.
Arguments Raise {A} e.

Record process := Process {
  environ : gmap string string;
  heap : list object;
  supabase_cache : option loc;
  trace : list event
}.

(** ** A state and exception monad for Python code *)

Definition py (A : Type) : Type := process -> outcome A * process.

Definition ret {A} (a : A) : py A := fun st => (Return a, st).

Definition raise {A} (e : exn) : py A := fun st => (Raise e, st).

Definition bind {A B} (m : py A) (k : A -> py B) : py B := fun st =>
  match m st with
  | (Return a, st') => k a st'
  | (Raise e, st') => (Raise e, st')
  end.

#[global] Instance py_ret : MRet py := @ret.
#[global] Instance py_bind : MBind py := fun A B k m => bind m k.

Definition emit (e : event) : py unit := fun st =>
  (Return tt,
   Process (environ st) (heap st) (supabase_cache st) (trace st ++ [e])).

(** Object construction: the new object gets the next free address. *)
Definition alloc (o : object) : py loc := fun st =>
  (Return (length (heap st)),
   Process (environ st) (heap st ++ [o]) (supabase_cache st) (trace st)).

(** ** Library primitives *)

(** [os.getenv(name)]: [None] when the variable is not set. *)
Definition getenv (name : string) : py (option string) := fun st =>
  (Return (environ st !! name),
   Process (environ st) (heap st) (supabase_cache st)
           (trace st ++ [EvGetenv name])).

(** Truth value of an [Optional[str]]: [None] and [""] are false. *)
Definition truthy (v : option string) : bool :=
  match v with
  | Some (String _ _) => true
  | _ => false
  end.

(** [logger.debug(fmt, arg)]. *)
Definition logger_debug (fmt arg : string) : py unit :=
  emit (EvLogDebug fmt arg).

(** The checks the constructor of supabase-py makes on its arguments
    before it builds a client: both are required and the URL has to match
    [^(https?)://.+].  It is the library behaviour of the sample runs,
    which use keys of the JWT shape that the key check of older releases
    accepts as well. *)
Fixpoint strip_prefix (p s : string) : option string :=
  match p, s with
  | EmptyString, _ => Some s
  | String a p', String b s' =>
      if Ascii.eqb a b then strip_prefix p' s' else None
  | String _ _, EmptyString => None
  end.

Definition url_has_scheme (url : string) : bool :=
  let some_char (rest : option string) :=
    match rest with
    | Some (String c _) => negb (Ascii.eqb c "010"%char)
    | _ => false
    end in
  some_char (strip_prefix "https://" url)
  || some_char (strip_prefix "http://" url).

Definition supabase_py_error (url key : string) : option string :=
  if String.eqb url "" then Some "supabase_url is required"
  else if String.eqb key "" then Some "supabase_key is required"
  else if negb (url_has_scheme url) then Some "Invalid URL"
  else None.

Section Library.

(** What the constructor of the installed supabase-py raises for a URL and
    a key: the message of its [SupabaseException], or [None] when it
    accepts the pair.  Everything below holds for any such library. *)
Variable client_error : string → string → option string.

(** [create_client(url, key)] of supabase-py: the library's error, or a new
    client bound to the pair. *)
Definition create_client (url key : string) : py loc :=
  match client_error url key with
  | Some msg => raise (SupabaseException msg)
  | None =>
      c ← alloc (Client url key);
      emit (EvCreateClient url key c) ;;
      ret c
  end.

(** [functools.lru_cache(maxsize=1)] around a function of no argument:
    one slot; a hit returns the stored result without running the
    function, a miss runs it and stores the result, and an exception
    passes through with nothing stored. *)
Definition lru_cache (f : py loc) : py loc := fun st =>
  match supabase_cache st with
  | Some r => (Return r, st)
  | None =>
      match f st with
      | (Return r, st') =>
          (Return r, Process (environ st') (heap st') (Some r) (trace st'))
      | (Raise e, st') => (Raise e, st')
      end
  end.

(** ** Environment and Supabase *)

Definition SUPABASE_URL_ENV : string := "SUPABASE_URL".
Definition SUPABASE_KEY_ENV_FALLBACKS : list string :=
  ["SUPABASE_SERVICE_ROLE_KEY"; "SUPABASE_KEY"].

(** The message of the error raised on missing credentials.  The dash is
    U+2013, kept as its three UTF-8 bytes. *)
Definition MISSING_CREDENTIALS : string :=
  "Missing Supabase credentials – set SUPABASE_URL and a service/anon key".

(** The loop
    [for env_name in SUPABASE_KEY_ENV_FALLBACKS:
         key = os.getenv(env_name)
         if key: break]
    started with the current value of [key]. *)
Fixpoint key_loop (names : list string) (key : option string)
  : py (option string) :=
  match names with
  | [] => ret key
  | env_name :: rest =>
      key ← getenv env_name;
      if truthy key then ret key else key_loop rest key
  end.

(** The body of [supabase], before decoration.  Past the test both
    values are strings, so the last branch of the match is never taken. *)
Definition supabase_body : py loc :=
  url ← getenv SUPABASE_URL_ENV;
  key ← key_loop SUPABASE_KEY_ENV_FALLBACKS None;
  if negb (truthy url) || negb (truthy key) then
    raise (RuntimeError MISSING_CREDENTIALS)
  else
    match url, key with
    | Some url, Some key =>
        logger_debug "Creating Supabase client for %s" url ;;
        create_client url key
    | _, _ => raise (TypeError "NoneType")
    end.

(** [supabase], as the module exports it. *)
Definition supabase : py loc := lru_cache supabase_body.

(** ** HTTP helper with retry and back-off *)

(** An ordered dictionary from prefixes to adapters: [d[k]] and
    [d[k] = v], which keeps the position of a key already present and
    appends a new one. *)
Fixpoint dict_get (k : string) (d : list (string * loc)) : option loc :=
  match d with
  | [] => None
  | (k', v) :: d' => if String.eqb k' k then Some v else dict_get k d'
  end.

Fixpoint dict_set (k : string) (v : loc) (d : list (string * loc))
  : list (string * loc) :=
  match d with
  | [] => [(k, v)]
  | (k', v') :: d' =>
      if String.eqb k' k then (k', v) :: d' else (k', v') :: dict_set k v d'
  end.

(** What [Session.mount] does to the dictionary: assign, then move every
    key shorter than the prefix behind the others. *)
Definition mount (prefix : string) (adapter : loc) (d : list (string * loc))
  : list (string * loc) :=
  let d' := dict_set prefix adapter d in
  let shorter (kv : string * loc) :=
    Nat.ltb (String.length (fst kv)) (String.length prefix) in
  List.filter (fun kv => negb (shorter kv)) d' ++ List.filter shorter d'.

(** [session.mount(prefix, adapter)] mutates the session in place. *)
Definition Session_mount (session : loc) (prefix : string) (adapter : loc)
  : py unit := fun st =>
  match heap st !! session with
  | Some (Session adapters) =>
      (Return tt,
       Process (environ st)
               (<[session := Session (mount prefix adapter adapters)]> (heap st))
               (supabase_cache st) (trace st))
  | _ => (Raise (TypeError "mount"), st)
  end.

(** The methods urllib3 retries when none are given. *)
Definition DEFAULT_ALLOWED_METHODS : list string :=
  ["HEAD"; "GET"; "PUT"; "DELETE"; "OPTIONS"; "TRACE"].

(** [HTTPAdapter(max_retries=...)]: the given policy, or [Retry(0)] when
    none is given. *)
Definition HTTPAdapter_new (max_retries : option loc) : py loc :=
  match max_retries with
  | Some r => alloc (HTTPAdapter r)
  | None =>
      r ← alloc (Retry 0 0%float [] DEFAULT_ALLOWED_METHODS);
      alloc (HTTPAdapter r)
  end.

(** [requests.Session()]: a session with a default adapter of its own for
    each of the two schemes. *)
Definition Session_new : py loc :=
  self ← alloc (Session []);
  a ← HTTPAdapter_new None;
  Session_mount self "https://" a ;;
  a ← HTTPAdapter_new None;
  Session_mount self "http://" a ;;
  ret self.

Definition _STATUS_FORCELIST : list Z := [429; 500; 502; 503; 504]%Z.

Definition http_session (total_retries : Z) (backoff_factor : float)
  : py loc :=
  session ← Session_new;
  retry_strategy ← alloc (Retry total_retries backoff_factor
                                 _STATUS_FORCELIST
                                 ["HEAD"; "GET"; "OPTIONS"; "POST"; "PUT";
                                  "DELETE"; "PATCH"]);
  adapter ← HTTPAdapter_new (Some retry_strategy);
  Session_mount session "https://" adapter ;;
  Session_mount session "http://" adapter ;;
  ret session.

(** A call site of [http_session]: an argument left out takes the default
    of the signature
    [http_session(total_retries: int = 5, backoff_factor: float = 1.25)]. *)
Definition http_session_call (total_retries : option Z)
    (backoff_factor : option float) : py loc :=
  http_session (default 5%Z total_retries) (default 1.25%float backoff_factor).

(** ** Executions of a process *)

(** What code that imports the module can do to the state modelled here:
    call one of the two helpers, or change the environment. *)
Inductive action :=
| CallSupabase
| CallHttpSession (total_retries : option Z) (backoff_factor : option float)
| SetEnv (name value : string)
| DelEnv (name : string).

Definition step (st : process) (a : action) : process :=
  match a with
  | CallSupabase => snd (supabase st)
  | CallHttpSession t b => snd (http_session_call t b st)
  | SetEnv name value =>
      Process (<[name := value]> (environ st)) (heap st)
              (supabase_cache st) (trace st)
  | DelEnv name =>
      Process (delete name (environ st)) (heap st)
              (supabase_cache st) (trace st)
  end.

Definition run (acts : list action) (st : process) : process :=
  foldl step st acts.

(** A process right after the module is imported. *)
Definition fresh_process (env : gmap string string) : process :=
  Process env [] None [].

(** ** Vocabulary of the properties *)

(** Both credentials are there: the URL variable is set and not empty, and
    so is one of the two key variables. *)
Definition has_credentials (env : gmap string string) : bool :=
  truthy (env !! "SUPABASE_URL")
  && (truthy (env !! "SUPABASE_SERVICE_ROLE_KEY")
      || truthy (env !! "SUPABASE_KEY")).

(** Number of client constructions recorded in a trace. *)
Fixpoint constructions (tr : list event) : nat :=
  match tr with
  | [] => 0
  | EvCreateClient _ _ _ :: tr' => S (constructions tr')
  | _ :: tr' => constructions tr'
  end.

(** The key a client is bound to. *)
Definition client_key (st : process) (c : loc) : option string :=
  match heap st !! c with
  | Some (Client _ key) => Some key
  | _ => None
  end.

(** The address holds a client. *)
Definition is_client (st : process) (c : loc) : bool :=
  match heap st !! c with
  | Some (Client _ _) => true
  | _ => false
  end.

(** The adapter a session has mounted for a prefix, and the retry policy
    behind it. *)
Definition mounted (st : process) (session : loc) (prefix : string)
  : option loc :=
  match heap st !! session with
  | Some (Session adapters) => dict_get prefix adapters
  | _ => None
  end.

Definition retry_of (st : process) (adapter : loc) : option loc :=
  match heap st !! adapter with
  | Some (HTTPAdapter r) => Some r
  | _ => None
  end.

Definition retry_policy (st : process) (session : loc) (prefix : string)
  : option object :=
  a ← mounted st session prefix;
  r ← retry_of st a;
  heap st !! r.

(** [sub] occurs in [s]. *)
Fixpoint contains (sub s : string) : bool :=
  String.prefix sub s
  || match s with
     | EmptyString => false
     | String _ s' => contains sub s'
     end.

(** The state after some more effects have been recorded. *)
Definition logged (st : process) (evs : list event) : process :=
  Process (environ st) (heap st) (supabase_cache st) (trace st ++ evs).

(** Unfolds the monad and the primitives of the client factory. *)
Ltac run_py :=
  cbv [supabase supabase_body lru_cache key_loop getenv create_client
       logger_debug emit alloc raise ret bind mbind mret py_bind py_ret
       SUPABASE_URL_ENV SUPABASE_KEY_ENV_FALLBACKS logged];
  cbn [environ heap supabase_cache trace].

(** ** Closed forms of the calls

    What the key loop returns and reads, spelled out on the environment;
    the lemmas below show that the code computes exactly these. *)

(** The key the loop ends with, and the reads it makes on the way. *)
Definition resolved_key (env : gmap string string) : option string :=
  if truthy (env !! "SUPABASE_SERVICE_ROLE_KEY")
  then env !! "SUPABASE_SERVICE_ROLE_KEY"
  else env !! "SUPABASE_KEY".

Definition key_reads (env : gmap string string) : list event :=
  if truthy (env !! "SUPABASE_SERVICE_ROLE_KEY")
  then [EvGetenv "SUPABASE_SERVICE_ROLE_KEY"]
  else [EvGetenv "SUPABASE_SERVICE_ROLE_KEY"; EvGetenv "SUPABASE_KEY"].

(** The events of a call that reaches [create_client] and is turned down
    by it. *)
Definition attempt_events (env : gmap string string) (url : string)
  : list event :=
  EvGetenv "SUPABASE_URL" :: key_reads env
  ++ [EvLogDebug "Creating Supabase client for %s" url].

(** The events of a call that builds a client. *)
Definition construction_events (env : gmap string string)
    (url key : string) (c : loc) : list event :=
  EvGetenv "SUPABASE_URL" :: key_reads env
  ++ [EvLogDebug "Creating Supabase client for %s" url;
      EvCreateClient url key c].

(** The objects one call of [http_session] adds to a store of [n]
    objects: the session, the two default adapters of [requests.Session()]
    with their policies, and the policy and adapter built by the call. *)
Definition session_objects (n : loc) (total_retries : Z)
    (backoff_factor : float) : list object :=
  [Session [("https://", n + 6); ("http://", n + 6)];
   Retry 0 0%float [] DEFAULT_ALLOWED_METHODS;
   HTTPAdapter (n + 1);
   Retry 0 0%float [] DEFAULT_ALLOWED_METHODS;
   HTTPAdapter (n + 3);
   Retry total_retries backoff_factor _STATUS_FORCELIST
         ["HEAD"; "GET"; "OPTIONS"; "POST"; "PUT"; "DELETE"; "PATCH"];
   HTTPAdapter (n + 5)].

(** The four ways a call of [supabase] can go. *)
Inductive supabase_call (st : process) : outcome loc → process → Prop :=
| call_hit c :
    supabase_cache st = Some c →
    supabase_call st (Return c) st
| call_built url key :
    supabase_cache st = None →
    environ st !! "SUPABASE_URL" = Some url → url ≠ "" →
    resolved_key (environ st) = Some key → key ≠ "" →
    client_error url key = None →
    supabase_call st (Return (length (heap st)))
      (Process (environ st) (heap st ++ [Client url key])
         (Some (length (heap st)))
         (trace st
          ++ construction_events (environ st) url key (length (heap st))))
| call_failed :
    supabase_cache st = None →
    has_credentials (environ st) = false →
    supabase_call st (Raise (RuntimeError MISSING_CREDENTIALS))
      (logged st (EvGetenv "SUPABASE_URL" :: key_reads (environ st)))
| call_rejected url key msg :
    supabase_cache st = None →
    environ st !! "SUPABASE_URL" = Some url → url ≠ "" →
    resolved_key (environ st) = Some key → key ≠ "" →
    client_error url key = Some msg →
    supabase_call st (Raise (SupabaseException msg))
      (logged st (attempt_events (environ st) url)).

(** The cache slot is filled exactly when one construction has been
    recorded, and then it holds a client of the store. *)
Definition cache_consistent (st : process) : Prop :=
  match supabase_cache st with
  | Some c => constructions (trace st) = 1 ∧ is_client st c = true
  | None => constructions (trace st) = 0
  end.

(** The actions that call [supabase]. *)
Definition is_supabase_call (a : action) : bool :=
  match a with
  | CallSupabase => true
  | _ => false
  end.

(** Sample environments: the URL with the fallback key only, and the same
    with the preferred key as well.  The keys have the shape of a JWT. *)
Definition env0 : gmap string string :=
  <["SUPABASE_URL" := "https://x.supabase.co"]>
    (<["SUPABASE_KEY" := "anon.jwt.sig"]> ∅).

Definition env1 : gmap string string :=
  <["SUPABASE_SERVICE_ROLE_KEY" := "service.jwt.sig"]> env0.

(** An environment whose URL lacks the scheme. *)
Definition env_no_scheme : gmap string string :=
  <["SUPABASE_URL" := "x.supabase.co"]>
    (<["SUPABASE_KEY" := "anon.jwt.sig"]> ∅).

(** The library accepts the URL and the key that a call of [supabase]
    would hand to [create_client] in this environment. *)
Definition library_accepts (env : gmap string string) : bool :=
  match env !! "SUPABASE_URL", resolved_key env with
  | Some url, Some key =>
      match client_error url key with
      | None => true
      | Some _ => false
      end
  | _, _ => false
  end.

(** A process whose first call failed for want of credentials and which
    was then given a key and a URL without scheme. *)
Definition retried_without_scheme : process :=
  run [CallSupabase; SetEnv "SUPABASE_URL" "x.supabase.co";
       SetEnv "SUPABASE_KEY" "anon.jwt.sig"]
      (fresh_process ∅).

(** A process that built its client from the fallback key and was then
    given the preferred key. *)
Definition cached_then_primary_set : process :=
  run [CallSupabase; SetEnv "SUPABASE_SERVICE_ROLE_KEY" "service.jwt.sig"]
      (fresh_process env0).

(** A process that built its client and then lost its credentials. *)
Definition cached_then_cleared : process :=
  run [CallSupabase; DelEnv "SUPABASE_URL"; DelEnv "SUPABASE_KEY"]
      (fresh_process env0).

(** What it takes for a message to name the two required variables: the
    name of the URL variable and the name of a key variable occur in it. *)
Definition names_required_variables (msg : string) : Prop :=
  contains SUPABASE_URL_ENV msg = true
  ∧ ∃ name, name ∈ SUPABASE_KEY_ENV_FALLBACKS ∧ contains name msg = true.

(** The address holds a session. *)
Definition is_session (st : process) (s : loc) : bool :=
  match heap st !! s with
  | Some (Session _) => true
  | _ => false
  end.

(** The sets of the retry policy, as the specification lists them. *)
Definition RETRYABLE_STATUS : gset Z :=
  {[ 429; 500; 502; 503; 504 ]}%Z.

Definition RETRYABLE_METHODS : gset string :=
  {[ "HEAD"; "GET"; "OPTIONS"; "POST"; "PUT"; "DELETE"; "PATCH" ]}.

(** ** Module import

    The statements the module runs when it is imported, in their order:
    [logging.basicConfig(level=os.getenv("LOG_LEVEL", "INFO"), ...)], then
    [load_dotenv()]. *)

(** [os.getenv(name, default)]: the default stands in only when the
    variable is not set. *)
Definition getenv_default (env : gmap string string) (name fallback : string)
  : string :=
  default fallback (env !! name).

(** [load_dotenv()] with its default [override=False]: every binding of the
    [.env] file whose name is not yet in [os.environ] is added; [dotenv] is
    the dictionary of bindings the file yields. *)
Definition load_dotenv (dotenv env : gmap string string)
  : gmap string string :=
  env ∪ dotenv.

(** What the import leaves behind: the level handed to
    [logging.basicConfig] and the process the helpers then run in. *)
Record imported := Imported {
  basicConfig_level : string;
  imported_process : process
}.

(** The level names of [logging], and the check [basicConfig] makes on a
    level given as a string when it configures the root logger: a string
    that is not one of the names raises [ValueError]. *)
Definition _nameToLevel : list (string * Z) :=
  [("CRITICAL", 50); ("FATAL", 50); ("ERROR", 40); ("WARN", 30);
   ("WARNING", 30); ("INFO", 20); ("DEBUG", 10); ("NOTSET", 0)]%Z.

Fixpoint _checkLevel_in (table : list (string * Z)) (level : string)
  : option Z :=
  match table with
  | [] => None
  | (name, n) :: table' =>
      if String.eqb name level then Some n else _checkLevel_in table' level
  end.

Definition _checkLevel (level : string) : option Z :=
  _checkLevel_in _nameToLevel level.

(** The import, in a process whose logging is not configured yet: it
    stops with [ValueError] at [logging.basicConfig] when the level is no
    level name, before [load_dotenv] runs and before the helpers are
    defined. *)
Definition import_module (dotenv env : gmap string string)
  : outcome imported :=
  let level := getenv_default env "LOG_LEVEL" "INFO" in
  match _checkLevel level with
  | None => Raise (ValueError level)
  | Some _ =>
      let env := load_dotenv dotenv env in
      Return (Imported level (fresh_process env))
  end.

(** ** Vocabulary of the further properties *)

(** The arguments of the debug records of a trace, and the URLs of its
    client constructions, in order. *)
Fixpoint logged_args (tr : list event) : list string :=
  match tr with
  | [] => []
  | EvLogDebug _ arg :: tr' => arg :: logged_args tr'
  | _ :: tr' => logged_args tr'
  end.

Fixpoint constructed_urls (tr : list event) : list string :=
  match tr with
  | [] => []
  | EvCreateClient url _ _ :: tr' => url :: constructed_urls tr'
  | _ :: tr' => constructed_urls tr'
  end.

(** What an action does to [os.environ] when only the assignments and
    deletions of the caller count. *)
Definition env_update (env : gmap string string) (a : action)
  : gmap string string :=
  match a with
  | SetEnv name value => <[name := value]> env
  | DelEnv name => delete name env
  | _ => env
  end.

(** What a caller of [supabase] sees: the error, or the object behind the
    returned address. *)
Definition supabase_result (st : process) : outcome (option object) :=
  match supabase st with
  | (Return c, st') => Return (heap st' !! c)
  | (Raise e, _) => Raise e
  end.

(** ** The client factory, call by call *)

(** The key loop reads the preferred variable, and the fallback only when
    the preferred one is unset or empty. *)
Lemma key_loop_primary st :
  truthy (environ st !! "SUPABASE_SERVICE_ROLE_KEY") = true →
  key_loop SUPABASE_KEY_ENV_FALLBACKS None st
  = (Return (environ st !! "SUPABASE_SERVICE_ROLE_KEY"),
     logged st [EvGetenv "SUPABASE_SERVICE_ROLE_KEY"]).
Proof.
  intros Hp. run_py. rewrite Hp. reflexivity.
Qed.

Lemma key_loop_fallback st :
  truthy (environ st !! "SUPABASE_SERVICE_ROLE_KEY") = false →
  key_loop SUPABASE_KEY_ENV_FALLBACKS None st
  = (Return (environ st !! "SUPABASE_KEY"),
     logged st [EvGetenv "SUPABASE_SERVICE_ROLE_KEY";
                EvGetenv "SUPABASE_KEY"]).
Proof.
  intros Hp. run_py. rewrite Hp. cbn [environ heap supabase_cache trace].
  rewrite <- app_assoc.
  destruct (truthy (environ st !! "SUPABASE_KEY")); reflexivity.
Qed.

Lemma key_loop_spec st :
  key_loop SUPABASE_KEY_ENV_FALLBACKS None st
  = (Return (resolved_key (environ st)), logged st (key_reads (environ st))).
Proof.
  unfold resolved_key, key_reads.
  destruct (truthy (environ st !! "SUPABASE_SERVICE_ROLE_KEY")) eqn:Hp.
  - by apply key_loop_primary.
  - by apply key_loop_fallback.
Qed.

Lemma has_credentials_resolved env :
  has_credentials env
  = truthy (env !! "SUPABASE_URL") && truthy (resolved_key env).
Proof.
  unfold has_credentials, resolved_key.
  destruct (truthy (env !! "SUPABASE_SERVICE_ROLE_KEY")) eqn:Hp;
    rewrite ?Hp; reflexivity.
Qed.

Lemma truthy_Some v : truthy v = true → ∃ s, v = Some s ∧ s ≠ "".
Proof. destruct v as [[|a s]|]; try discriminate. intros _. by eexists. Qed.

Lemma truthy_nonempty s : s ≠ "" → truthy (Some s) = true.
Proof. by destruct s. Qed.

(** The undecorated function: with credentials the library accepts it
    builds a client at the next free address; with credentials the library
    turns down it passes the library's error on; without credentials it
    raises after its reads. *)
Lemma supabase_body_ok st url key :
  environ st !! "SUPABASE_URL" = Some url →
  resolved_key (environ st) = Some key →
  has_credentials (environ st) = true →
  client_error url key = None →
  supabase_body st
  = (Return (length (heap st)),
     Process (environ st) (heap st ++ [Client url key]) (supabase_cache st)
       (trace st
        ++ construction_events (environ st) url key (length (heap st)))).
Proof.
  intros Hu Hk Hc Hok. rewrite has_credentials_resolved, Hu, Hk in Hc.
  apply andb_prop in Hc as [Htu Htk].
  unfold supabase_body.
  cbv [bind mbind py_bind getenv SUPABASE_URL_ENV].
  rewrite key_loop_spec. cbn [environ heap supabase_cache trace logged].
  rewrite Hu, Hk, Htu, Htk. cbn [negb orb].
  run_py. rewrite Hok. run_py. unfold construction_events.
  do 2 f_equal. by rewrite <- !app_assoc.
Qed.

Lemma supabase_body_rejected st url key msg :
  environ st !! "SUPABASE_URL" = Some url →
  resolved_key (environ st) = Some key →
  has_credentials (environ st) = true →
  client_error url key = Some msg →
  supabase_body st
  = (Raise (SupabaseException msg),
     logged st (attempt_events (environ st) url)).
Proof.
  intros Hu Hk Hc Hno. rewrite has_credentials_resolved, Hu, Hk in Hc.
  apply andb_prop in Hc as [Htu Htk].
  unfold supabase_body.
  cbv [bind mbind py_bind getenv SUPABASE_URL_ENV].
  rewrite key_loop_spec. cbn [environ heap supabase_cache trace logged].
  rewrite Hu, Hk, Htu, Htk. cbn [negb orb].
  run_py. rewrite Hno. run_py. unfold attempt_events.
  do 2 f_equal. by rewrite <- !app_assoc.
Qed.

Lemma supabase_body_fail st :
  has_credentials (environ st) = false →
  supabase_body st
  = (Raise (RuntimeError MISSING_CREDENTIALS),
     logged st (EvGetenv "SUPABASE_URL" :: key_reads (environ st))).
Proof.
  intros Hc. rewrite has_credentials_resolved in Hc.
  unfold supabase_body.
  cbv [bind mbind py_bind getenv SUPABASE_URL_ENV].
  rewrite key_loop_spec. cbn [environ heap supabase_cache trace logged].
  rewrite <- negb_andb, Hc. cbn [negb]. unfold raise, logged.
  cbn [environ heap supabase_cache trace]. by rewrite <- app_assoc.
Qed.

(** The decorated function. *)
Lemma supabase_hit st c :
  supabase_cache st = Some c → supabase st = (Return c, st).
Proof. intros Hc. unfold supabase, lru_cache. by rewrite Hc. Qed.

Lemma supabase_miss_ok st url key :
  supabase_cache st = None →
  environ st !! "SUPABASE_URL" = Some url →
  resolved_key (environ st) = Some key →
  has_credentials (environ st) = true →
  client_error url key = None →
  supabase st
  = (Return (length (heap st)),
     Process (environ st) (heap st ++ [Client url key])
       (Some (length (heap st)))
       (trace st
        ++ construction_events (environ st) url key (length (heap st)))).
Proof.
  intros Hn Hu Hk Hc Hok. unfold supabase, lru_cache.
  by rewrite Hn, (supabase_body_ok st url key).
Qed.

Lemma supabase_miss_rejected st url key msg :
  supabase_cache st = None →
  environ st !! "SUPABASE_URL" = Some url →
  resolved_key (environ st) = Some key →
  has_credentials (environ st) = true →
  client_error url key = Some msg →
  supabase st
  = (Raise (SupabaseException msg),
     logged st (attempt_events (environ st) url)).
Proof.
  intros Hn Hu Hk Hc Hno. unfold supabase, lru_cache.
  by rewrite Hn, (supabase_body_rejected st url key msg).
Qed.

Lemma supabase_miss_fail st :
  supabase_cache st = None →
  has_credentials (environ st) = false →
  supabase st
  = (Raise (RuntimeError MISSING_CREDENTIALS),
     logged st (EvGetenv "SUPABASE_URL" :: key_reads (environ st))).
Proof.
  intros Hn Hc. unfold supabase, lru_cache.
  by rewrite Hn, supabase_body_fail.
Qed.

Lemma has_credentials_values env :
  has_credentials env = true →
  ∃ url key, env !! "SUPABASE_URL" = Some url ∧ url ≠ ""
             ∧ resolved_key env = Some key ∧ key ≠ "".
Proof.
  rewrite has_credentials_resolved. intros [Hu Hk]%andb_prop.
  apply truthy_Some in Hu as (url & ? & ?).
  apply truthy_Some in Hk as (key & ? & ?). by exists url, key.
Qed.

(** ** The session factory, call by call *)

Lemma Session_mount_at st (h tl : list object) d prefix adapter :
  heap st = h ++ Session d :: tl →
  Session_mount (length h) prefix adapter st
  = (Return tt,
     Process (environ st) (h ++ Session (mount prefix adapter d) :: tl)
             (supabase_cache st) (trace st)).
Proof.
  intros Hh. unfold Session_mount.
  rewrite Hh, list_lookup_middle by done.
  rewrite insert_app_r_alt, Nat.sub_diag by lia. reflexivity.
Qed.

Lemma http_session_spec total_retries backoff_factor st :
  http_session total_retries backoff_factor st
  = (Return (length (heap st)),
     Process (environ st)
       (heap st
        ++ session_objects (length (heap st)) total_retries backoff_factor)
       (supabase_cache st) (trace st)).
Proof.
  destruct st as [env h c tr].
  unfold http_session, Session_new, HTTPAdapter_new.
  cbv [bind mbind py_bind alloc ret mret py_ret].
  cbn [environ heap supabase_cache trace].
  rewrite <- !app_assoc. cbn [app].
  repeat (erewrite Session_mount_at by (cbn [heap]; reflexivity);
          cbn [environ heap supabase_cache trace];
          rewrite <- ?app_assoc; cbn [app]).
  rewrite !length_app. cbn [length]. reflexivity.
Qed.

Lemma http_session_call_spec t b st :
  http_session_call t b st
  = (Return (length (heap st)),
     Process (environ st)
       (heap st ++ session_objects (length (heap st)) (default 5%Z t)
                                   (default 1.25%float b))
       (supabase_cache st) (trace st)).
Proof. apply http_session_spec. Qed.

(** ** Invariants of executions *)

Lemma supabase_cases st : supabase_call st (supabase st).1 (supabase st).2.
Proof.
  destruct (supabase_cache st) as [c|] eqn:Hcache.
  - rewrite (supabase_hit st c) by done. by constructor.
  - destruct (has_credentials (environ st)) eqn:Hcred.
    + destruct (has_credentials_values _ Hcred) as (url & key & ? & ? & ? & ?).
      destruct (client_error url key) as [msg|] eqn:Hlib.
      * rewrite (supabase_miss_rejected st url key msg) by done.
        by apply (call_rejected st url key msg).
      * rewrite (supabase_miss_ok st url key) by done. by constructor.
    + rewrite supabase_miss_fail by done. by constructor.
Qed.

Lemma constructions_app tr1 tr2 :
  constructions (tr1 ++ tr2) = constructions tr1 + constructions tr2.
Proof.
  induction tr1 as [|[] tr1 IH]; cbn [app constructions]; rewrite ?IH; done.
Qed.

Lemma constructions_key_reads env : constructions (key_reads env) = 0.
Proof. unfold key_reads. by destruct (truthy _). Qed.

Lemma constructions_attempt_events env url :
  constructions (attempt_events env url) = 0.
Proof.
  unfold attempt_events. cbn [constructions].
  by rewrite constructions_app, constructions_key_reads.
Qed.

Lemma constructions_construction_events env url key c :
  constructions (construction_events env url key c) = 1.
Proof.
  unfold construction_events. cbn [constructions].
  by rewrite constructions_app, constructions_key_reads.
Qed.

(** The store only grows: objects keep their address and their value. *)
Lemma step_heap_prefix st a : heap st `prefix_of` heap (step st a).
Proof.
  destruct a; cbn [step heap]; try done.
  - destruct (supabase_cases st); cbn [heap logged]; try done.
    by apply prefix_app_r.
  - rewrite http_session_call_spec. by apply prefix_app_r.
Qed.

Lemma run_heap_prefix acts st : heap st `prefix_of` heap (run acts st).
Proof.
  revert st. induction acts as [|a acts IH]; intros st; [done|].
  cbn [run foldl]. etrans; [apply (step_heap_prefix st a)|apply IH].
Qed.

(** A filled cache slot is never changed. *)
Lemma step_cache st a c :
  supabase_cache st = Some c → supabase_cache (step st a) = Some c.
Proof.
  intros Hc. destruct a; cbn [step supabase_cache]; try done.
  - by rewrite (supabase_hit st c).
  - by rewrite http_session_call_spec.
Qed.

Lemma run_cache acts st c :
  supabase_cache st = Some c → supabase_cache (run acts st) = Some c.
Proof.
  revert st. induction acts as [|a acts IH]; intros st Hc; [done|].
  cbn [run foldl]. by apply IH, step_cache.
Qed.

Lemma step_cache_consistent st a :
  cache_consistent st → cache_consistent (step st a).
Proof.
  unfold cache_consistent. intros Hinv.
  destruct a; cbn [step supabase_cache trace]; try done.
  - destruct (supabase_cases st) as [c Hc|url key Hc|Hc|url key msg Hc];
      cbn [supabase_cache trace logged]; rewrite Hc in Hinv.
    + by rewrite Hc.
    + rewrite constructions_app, constructions_construction_events, Hinv.
      split; [done|]. unfold is_client. cbn [heap].
      by rewrite list_lookup_middle.
    + rewrite constructions_app. cbn [constructions].
      by rewrite Hc, constructions_key_reads, Hinv.
    + by rewrite Hc, constructions_app, constructions_attempt_events, Hinv.
  - rewrite http_session_call_spec. cbn [supabase_cache trace].
    destruct (supabase_cache st) as [c|]; [|done].
    destruct Hinv as [? Hcl]. split; [done|].
    unfold is_client in *. cbn [heap snd].
    destruct (heap st !! c) as [o|] eqn:Ho; [|done].
    by rewrite (lookup_app_l_Some _ _ _ _ Ho).
Qed.

Lemma run_cache_consistent acts st :
  cache_consistent st → cache_consistent (run acts st).
Proof.
  revert st. induction acts as [|a acts IH]; intros st Hinv; [done|].
  cbn [run foldl]. by apply IH, step_cache_consistent.
Qed.

Lemma fresh_process_consistent env : cache_consistent (fresh_process env).
Proof. done. Qed.

Lemma run_other_cache acts st :
  forallb (fun a => negb (is_supabase_call a)) acts = true →
  supabase_cache (run acts st) = supabase_cache st.
Proof.
  revert st. induction acts as [|a acts IH]; intros st Hacts; [done|].
  cbn [forallb] in Hacts. apply andb_prop in Hacts as [Ha Hacts].
  cbn [run foldl]. fold (run acts (step st a)). rewrite IH by done.
  destruct a; try done. cbn [step]. by rewrite http_session_call_spec.
Qed.

(** What [has_credentials] says, spelled out. *)
Lemma has_credentials_iff env :
  has_credentials env = true
  ↔ (∃ url, env !! SUPABASE_URL_ENV = Some url ∧ url ≠ "")
    ∧ (∃ name key, name ∈ SUPABASE_KEY_ENV_FALLBACKS
                   ∧ env !! name = Some key ∧ key ≠ "").
Proof.
  unfold has_credentials, SUPABASE_URL_ENV, SUPABASE_KEY_ENV_FALLBACKS.
  split.
  - intros [Hu Hk]%andb_prop. split.
    + apply truthy_Some in Hu as (url & ? & ?). by exists url.
    + apply orb_prop in Hk as [Hk|Hk];
        apply truthy_Some in Hk as (key & ? & ?).
      * exists "SUPABASE_SERVICE_ROLE_KEY", key. set_solver.
      * exists "SUPABASE_KEY", key. set_solver.
  - intros [(url & -> & Hu) (name & key & Hin & Hk & Hne)].
    rewrite (truthy_nonempty url Hu). cbn [andb].
    apply list_elem_of_In in Hin. cbn [In] in Hin.
    destruct Hin as [<-|[<-|[]]]; rewrite Hk, (truthy_nonempty key Hne).
    + done.
    + apply orb_true_r.
Qed.

(** ** The client factory *)

Lemma library_accepts_values env url key :
  library_accepts env = true →
  env !! "SUPABASE_URL" = Some url →
  resolved_key env = Some key →
  client_error url key = None.
Proof.
  unfold library_accepts. intros Hacc Hu Hk. rewrite Hu, Hk in Hacc.
  by destruct (client_error url key).
Qed.

(** C1, amended.  In a process where the URL variable and at least one key
    variable are set and not empty, and [create_client] accepts the URL and
    the key, the first call of [supabase] returns a client of the store,
    and whatever happens afterwards (calls of either helper, changes of the
    environment) every later call returns the same address and leaves the
    whole state as it was: nothing is read from the environment and
    nothing is constructed. *)
Theorem supabase_singleton st :
  supabase_cache st = None →
  has_credentials (environ st) = true →
  library_accepts (environ st) = true →
  ∃ c st1 url key,
    supabase st = (Return c, st1)
    ∧ environ st !! "SUPABASE_URL" = Some url
    ∧ heap st1 !! c = Some (Client url key)
    ∧ ∀ acts,
        supabase (run acts st1) = (Return c, run acts st1)
        ∧ heap (run acts st1) !! c = Some (Client url key).
Proof.
  intros Hcache Hcred Hacc.
  destruct (has_credentials_values _ Hcred) as (url & key & Hu & _ & Hk & _).
  pose proof (library_accepts_values _ url key Hacc Hu Hk) as Hok.
  eexists _, _, url, key.
  split; [by apply supabase_miss_ok|]. split; [done|].
  assert (Hc : ∀ (h : list object), (h ++ [Client url key]) !! length h
                                    = Some (Client url key))
    by (intros h; by apply list_lookup_middle).
  split; [apply Hc|]. intros acts. split.
  - apply supabase_hit. by apply run_cache.
  - eapply prefix_lookup_Some; [|apply run_heap_prefix]. apply Hc.
Qed.

(** C2, amended.  When no client is cached and the environment lacks a
    non-empty URL or a non-empty key under both names, the call raises the
    configuration error and returns no client; the store and the cache
    slot stay as they were. *)
Theorem supabase_missing_credentials st :
  supabase_cache st = None →
  has_credentials (environ st) = false →
  ∃ st',
    supabase st = (Raise (RuntimeError MISSING_CREDENTIALS), st')
    ∧ heap st' = heap st
    ∧ supabase_cache st' = None.
Proof.
  intros Hcache Hcred. eexists.
  split; [by apply supabase_miss_fail|]. done.
Qed.

(** C3, amended.  A first call made without credentials fails and leaves
    the cache slot, the store and the number of constructions as they
    were.  After any changes of the environment and calls of
    [http_session], a call made with credentials present that
    [create_client] accepts runs the construction and succeeds, and its
    client is then cached.  In every execution of a process the trace
    records at most one construction. *)
Theorem supabase_failure_not_cached st :
  supabase_cache st = None →
  has_credentials (environ st) = false →
  (∃ e st1,
     supabase st = (Raise e, st1)
     ∧ supabase_cache st1 = supabase_cache st
     ∧ heap st1 = heap st
     ∧ constructions (trace st1) = constructions (trace st)
     ∧ ∀ acts,
         forallb (fun a => negb (is_supabase_call a)) acts = true →
         has_credentials (environ (run acts st1)) = true →
         library_accepts (environ (run acts st1)) = true →
         ∃ c st3,
           supabase (run acts st1) = (Return c, st3)
           ∧ is_client st3 c = true
           ∧ supabase_cache st3 = Some c
           ∧ constructions (trace st3)
             = S (constructions (trace (run acts st1))))
  ∧ ∀ env acts,
      (constructions (trace (run acts (fresh_process env))) ≤ 1)%nat.
Proof.
  intros Hcache Hcred. split.
  - eexists _, _. split; [by apply supabase_miss_fail|].
    cbn [logged supabase_cache heap trace].
    split; [done|]. split; [done|]. split.
    { rewrite constructions_app. cbn [constructions].
      rewrite constructions_key_reads. lia. }
    intros acts Hacts Hcred' Hacc.
    set (st1 := logged st _) in *. set (st2 := run acts st1) in *.
    assert (Hcache2 : supabase_cache st2 = None).
    { unfold st2. by rewrite run_other_cache. }
    destruct (has_credentials_values _ Hcred')
      as (url & key & Hu & _ & Hk & _).
    pose proof (library_accepts_values _ url key Hacc Hu Hk) as Hok.
    eexists _, _. split; [by apply (supabase_miss_ok st2 url key)|].
    split.
    { unfold is_client. cbn [heap]. by rewrite list_lookup_middle. }
    split; [done|]. cbn [trace].
    rewrite constructions_app, constructions_construction_events. lia.
  - intros env acts.
    pose proof (run_cache_consistent acts _ (fresh_process_consistent env))
      as Hinv.
    unfold cache_consistent in Hinv.
    destruct (supabase_cache (run acts (fresh_process env)));
      [destruct Hinv|]; lia.
Qed.

(** C4, amended.  In every environment the key loop of [supabase] ends
    with the value of [SUPABASE_SERVICE_ROLE_KEY] when that is set and not
    empty, whatever [SUPABASE_KEY] holds, and then the fallback is not
    even read; it ends with the value of [SUPABASE_KEY] when the preferred
    variable is unset or empty and the fallback is set and not empty.  A
    call made while no client is cached, with a non-empty URL that
    [create_client] accepts together with that key, returns a client bound
    to that key. *)
Theorem supabase_key_resolution st key :
  (environ st !! "SUPABASE_SERVICE_ROLE_KEY" = Some key ∧ key ≠ "")
  ∨ ((environ st !! "SUPABASE_SERVICE_ROLE_KEY" = None
      ∨ environ st !! "SUPABASE_SERVICE_ROLE_KEY" = Some "")
     ∧ environ st !! "SUPABASE_KEY" = Some key ∧ key ≠ "") →
  key_loop SUPABASE_KEY_ENV_FALLBACKS None st
  = (Return (Some key),
     logged st
       (if truthy (environ st !! "SUPABASE_SERVICE_ROLE_KEY")
        then [EvGetenv "SUPABASE_SERVICE_ROLE_KEY"]
        else [EvGetenv "SUPABASE_SERVICE_ROLE_KEY"; EvGetenv "SUPABASE_KEY"]))
  ∧ (supabase_cache st = None →
     truthy (environ st !! "SUPABASE_URL") = true →
     library_accepts (environ st) = true →
     ∃ c st', supabase st = (Return c, st') ∧ client_key st' c = Some key).
Proof.
  intros Hkey.
  assert (Hres : resolved_key (environ st) = Some key).
  { unfold resolved_key.
    destruct Hkey as [[Hp Hne]|[[Hp|Hp] [Hf _]]]; rewrite Hp.
    - by rewrite (truthy_nonempty key Hne).
    - done.
    - done. }
  split.
  - rewrite key_loop_spec, Hres. reflexivity.
  - intros Hcache Hurl Hacc.
    assert (Hcred : has_credentials (environ st) = true).
    { rewrite has_credentials_resolved, Hurl, Hres. cbn [andb].
      destruct Hkey as [[_ Hne]|(_ & _ & Hne)]; by apply truthy_nonempty. }
    apply truthy_Some in Hurl as (url & Hu & _).
    pose proof (library_accepts_values _ url key Hacc Hu Hres) as Hok.
    eexists _, _. split; [by apply (supabase_miss_ok st url key)|].
    unfold client_key. cbn [heap]. by rewrite list_lookup_middle.
Qed.

(** C5, amended.  Whenever [supabase] raises the configuration error, the
    error carries one fixed message; the message names the URL variable
    [SUPABASE_URL], and for the key it says "a service/anon key" and names
    neither key variable. *)
Theorem supabase_error_message st msg st' :
  supabase st = (Raise (RuntimeError msg), st') →
  msg = MISSING_CREDENTIALS
  ∧ contains SUPABASE_URL_ENV MISSING_CREDENTIALS = true
  ∧ contains "a service/anon key" MISSING_CREDENTIALS = true
  ∧ ∀ name, name ∈ SUPABASE_KEY_ENV_FALLBACKS →
            contains name MISSING_CREDENTIALS = false.
Proof.
  intros Hraise. split.
  - pose proof (supabase_cases st) as Hcall. rewrite Hraise in Hcall.
    cbn [fst snd] in Hcall. by inversion Hcall.
  - split; [reflexivity|]. split; [reflexivity|].
    intros name Hin. apply list_elem_of_In in Hin.
    cbn [SUPABASE_KEY_ENV_FALLBACKS In] in Hin.
    destruct Hin as [<-|[<-|[]]]; reflexivity.
Qed.

(** ** The session factory *)

(** Reading the objects of a call back from the store. *)
Lemma session_objects_lookup (h : list object) n t b i :
  n = length h →
  (h ++ session_objects n t b) !! (n + i) = session_objects n t b !! i.
Proof. intros ->. rewrite lookup_app_r by lia. f_equal. lia. Qed.

Lemma http_session_mounted t b st prefix :
  prefix = "https://" ∨ prefix = "http://" →
  ∃ st',
    http_session t b st = (Return (length (heap st)), st')
    ∧ mounted st' (length (heap st)) prefix = Some (length (heap st) + 6)
    ∧ heap st' !! (length (heap st) + 6)
      = Some (HTTPAdapter (length (heap st) + 5))
    ∧ heap st' !! (length (heap st) + 5)
      = Some (Retry t b _STATUS_FORCELIST
                ["HEAD"; "GET"; "OPTIONS"; "POST"; "PUT"; "DELETE"; "PATCH"]).
Proof.
  intros Hprefix. eexists. split; [apply http_session_spec|].
  unfold mounted. cbn [heap]. split; [|split].
  - unfold session_objects. rewrite list_lookup_middle by done.
    by destruct Hprefix as [->| ->].
  - by rewrite session_objects_lookup.
  - by rewrite session_objects_lookup.
Qed.

Lemma retry_policy_after_call t b st prefix :
  prefix = "https://" ∨ prefix = "http://" →
  ∃ st',
    http_session t b st = (Return (length (heap st)), st')
    ∧ retry_policy st' (length (heap st)) prefix
      = Some (Retry t b _STATUS_FORCELIST
                ["HEAD"; "GET"; "OPTIONS"; "POST"; "PUT"; "DELETE"; "PATCH"]).
Proof.
  intros Hprefix.
  destruct (http_session_mounted t b st prefix Hprefix)
    as (st' & Hcall & Hm & Ha & Hr).
  exists st'. split; [done|].
  unfold retry_policy, retry_of. rewrite Hm. cbn [mbind option_bind].
  rewrite Ha. cbn [mbind option_bind]. done.
Qed.

(** C6.  Two calls of [http_session], with any arguments given or left
    out and anything happening in between, return different sessions: the
    second one is an address that held no object before the call, and
    both addresses hold a session afterwards. *)
Theorem http_session_distinct st t1 b1 acts t2 b2 :
  ∃ s1 st1 s2 st2,
    http_session_call t1 b1 st = (Return s1, st1)
    ∧ http_session_call t2 b2 (run acts st1) = (Return s2, st2)
    ∧ s1 ≠ s2
    ∧ heap (run acts st1) !! s2 = None
    ∧ is_session st2 s1 = true
    ∧ is_session st2 s2 = true.
Proof.
  eexists _, _, _, _.
  split; [apply http_session_call_spec|].
  split; [apply http_session_call_spec|].
  set (st1 := Process _ _ _ _).
  pose proof (run_heap_prefix acts st1) as Hpre.
  pose proof (prefix_length _ _ Hpre) as Hlen.
  assert (Hs1 : heap st1 !! length (heap st)
                = Some (Session [("https://", length (heap st) + 6);
                                 ("http://", length (heap st) + 6)]))
    by (by apply list_lookup_middle).
  subst st1. cbn [heap] in Hlen, Hs1.
  rewrite length_app in Hlen. cbn [session_objects length] in Hlen.
  split; [lia|]. split; [by apply lookup_ge_None|].
  unfold is_session. cbn [heap]. split.
  - erewrite lookup_app_l_Some;
      [|eapply prefix_lookup_Some; [apply Hs1|apply Hpre]]. done.
  - unfold session_objects. by rewrite list_lookup_middle.
Qed.

(** C7.  The session returned by [http_session total_retries
    backoff_factor] carries, under both of its prefixes, a retry policy
    with that total, that back-off factor, the status codes
    {429, 500, 502, 503, 504} and the methods
    {HEAD, GET, OPTIONS, POST, PUT, DELETE, PATCH}. *)
Theorem http_session_retry_policy total_retries backoff_factor st :
  ∃ s st' status_forcelist allowed_methods,
    http_session total_retries backoff_factor st = (Return s, st')
    ∧ (∀ prefix a, mounted st' s prefix = Some a →
         ∃ r, retry_of st' a = Some r
              ∧ heap st' !! r
                = Some (Retry total_retries backoff_factor
                              status_forcelist allowed_methods))
    ∧ retry_policy st' s "https://"
      = Some (Retry total_retries backoff_factor
                    status_forcelist allowed_methods)
    ∧ list_to_set status_forcelist = RETRYABLE_STATUS
    ∧ list_to_set allowed_methods = RETRYABLE_METHODS.
Proof.
  destruct (http_session_mounted total_retries backoff_factor st "https://")
    as (st' & Hcall & Hm & Ha & Hr); [by left|].
  destruct (retry_policy_after_call total_retries backoff_factor st
              "https://") as (st'' & Hcall' & Hpol); [by left|].
  rewrite Hcall in Hcall'. injection Hcall' as <-.
  eexists _, st', _, _. split; [exact Hcall|]. split.
  - intros prefix a Hprefix. exists (length (heap st) + 5).
    rewrite http_session_spec in Hcall. injection Hcall as <-.
    unfold mounted, session_objects in Hprefix. cbn [heap] in Hprefix.
    rewrite list_lookup_middle in Hprefix by done.
    cbn [dict_get] in Hprefix.
    assert (a = length (heap st) + 6) as ->.
    { destruct (String.eqb "https://" prefix); [congruence|].
      destruct (String.eqb "http://" prefix); congruence. }
    unfold retry_of. by rewrite Ha.
  - split; [exact Hpol|]. split.
    + unfold _STATUS_FORCELIST, RETRYABLE_STATUS. set_solver.
    + unfold RETRYABLE_METHODS. set_solver.
Qed.

(** C8.  After any call of [http_session], with arguments given or left
    out, the session has an adapter mounted for ["https://"] and one for
    ["http://"], both carry a retry policy, and the two policies have the
    same settings, those of the call. *)
Theorem http_session_mounts_both_schemes total_retries backoff_factor st :
  ∃ s st' secure insecure policy,
    http_session_call total_retries backoff_factor st = (Return s, st')
    ∧ mounted st' s "https://" = Some secure
    ∧ mounted st' s "http://" = Some insecure
    ∧ retry_policy st' s "https://" = Some policy
    ∧ retry_policy st' s "http://" = Some policy
    ∧ policy = Retry (default 5%Z total_retries)
                     (default 1.25%float backoff_factor)
                     _STATUS_FORCELIST
                     ["HEAD"; "GET"; "OPTIONS"; "POST"; "PUT"; "DELETE";
                      "PATCH"].
Proof.
  unfold http_session_call.
  set (t := default 5%Z total_retries).
  set (b := default 1.25%float backoff_factor).
  destruct (http_session_mounted t b st "https://")
    as (st1 & Hcall1 & Hm1 & _); [by left|].
  destruct (http_session_mounted t b st "http://")
    as (st2 & Hcall2 & Hm2 & _); [by right|].
  destruct (retry_policy_after_call t b st "https://")
    as (st3 & Hcall3 & Hp3); [by left|].
  destruct (retry_policy_after_call t b st "http://")
    as (st4 & Hcall4 & Hp4); [by right|].
  rewrite Hcall1 in Hcall2, Hcall3, Hcall4.
  injection Hcall2 as <-. injection Hcall3 as <-. injection Hcall4 as <-.
  by eexists _, st1, _, _, _.
Qed.

(** C9.  [http_session] takes an integer and a float and returns a
    session; a call that leaves an argument out runs with 5 retries,
    respectively with the back-off factor 1.25, and the session of a call
    without arguments carries a policy with these two values. *)
Theorem http_session_defaults st :
  http_session_call None None st = http_session 5 1.25 st
  ∧ (∀ total_retries,
       http_session_call (Some total_retries) None st
       = http_session total_retries 1.25 st)
  ∧ (∀ backoff_factor,
       http_session_call None (Some backoff_factor) st
       = http_session 5 backoff_factor st)
  ∧ ∃ s st' status_forcelist allowed_methods,
      http_session_call None None st = (Return s, st')
      ∧ is_session st' s = true
      ∧ retry_policy st' s "https://"
        = Some (Retry 5 1.25 status_forcelist allowed_methods)
      ∧ retry_policy st' s "http://"
        = Some (Retry 5 1.25 status_forcelist allowed_methods).
Proof.
  split; [done|]. split; [done|]. split; [done|].
  unfold http_session_call. cbn [default].
  destruct (retry_policy_after_call 5 1.25 st "https://")
    as (st1 & Hcall1 & Hp1); [by left|].
  destruct (retry_policy_after_call 5 1.25 st "http://")
    as (st2 & Hcall2 & Hp2); [by right|].
  rewrite Hcall1 in Hcall2. injection Hcall2 as <-.
  eexists _, st1, _, _. split; [exact Hcall1|].
  split; [|by split].
  rewrite http_session_spec in Hcall1. injection Hcall1 as <-.
  unfold is_session, session_objects. cbn [heap].
  by rewrite list_lookup_middle.
Qed.

(** C10.  In a session returned by [http_session] the adapter mounted for
    ["https://"] and the adapter mounted for ["http://"] are one object,
    built by the call, which refers to one retry policy object. *)
Theorem http_session_shared_adapter total_retries backoff_factor st :
  ∃ s st' adapter retry_strategy,
    http_session total_retries backoff_factor st = (Return s, st')
    ∧ mounted st' s "https://" = Some adapter
    ∧ mounted st' s "http://" = Some adapter
    ∧ heap st !! adapter = None
    ∧ heap st' !! adapter = Some (HTTPAdapter retry_strategy)
    ∧ heap st !! retry_strategy = None
    ∧ heap st' !! retry_strategy
      = Some (Retry total_retries backoff_factor _STATUS_FORCELIST
                ["HEAD"; "GET"; "OPTIONS"; "POST"; "PUT"; "DELETE";
                 "PATCH"]).
Proof.
  destruct (http_session_mounted total_retries backoff_factor st "https://")
    as (st1 & Hcall1 & Hm1 & Ha & Hr); [by left|].
  destruct (http_session_mounted total_retries backoff_factor st "http://")
    as (st2 & Hcall2 & Hm2 & _); [by right|].
  rewrite Hcall1 in Hcall2. injection Hcall2 as <-.
  eexists _, st1, _, _. split; [exact Hcall1|].
  split; [exact Hm1|]. split; [exact Hm2|].
  split; [apply lookup_ge_None; lia|].
  split; [exact Ha|].
  split; [apply lookup_ge_None; lia|exact Hr].
Qed.

(** ** Further properties of executions *)

Lemma run_invariant (P : process → Prop) :
  (∀ st a, P st → P (step st a)) →
  ∀ acts st, P st → P (run acts st).
Proof.
  intros Hstep acts. induction acts as [|a acts IH]; intros st HP; [done|].
  cbn [run foldl]. by apply IH, Hstep.
Qed.

Lemma run_lookup_stable acts st i o :
  heap st !! i = Some o → heap (run acts st) !! i = Some o.
Proof.
  intros Hi. eapply prefix_lookup_Some; [exact Hi|apply run_heap_prefix].
Qed.

Lemma logged_args_app tr1 tr2 :
  logged_args (tr1 ++ tr2) = logged_args tr1 ++ logged_args tr2.
Proof.
  induction tr1 as [|[] tr1 IH]; cbn [app logged_args]; rewrite ?IH; done.
Qed.

Lemma constructed_urls_app tr1 tr2 :
  constructed_urls (tr1 ++ tr2) = constructed_urls tr1 ++ constructed_urls tr2.
Proof.
  induction tr1 as [|[] tr1 IH]; cbn [app constructed_urls]; rewrite ?IH; done.
Qed.

Lemma key_reads_silent env :
  logged_args (key_reads env) = [] ∧ constructed_urls (key_reads env) = [].
Proof. unfold key_reads. by destruct (truthy _). Qed.

Lemma attempt_events_logged env url :
  logged_args (attempt_events env url) = [url]
  ∧ constructed_urls (attempt_events env url) = [].
Proof.
  unfold attempt_events. cbn [logged_args constructed_urls].
  rewrite logged_args_app, constructed_urls_app.
  by destruct (key_reads_silent env) as [-> ->].
Qed.



Lemma session_objects_no_client n t b i :
  match session_objects n t b !! i with
  | Some (Client _ _) => False
  | _ => True
  end.
Proof.
  unfold session_objects.
  do 7 (destruct i as [|i]; [done|]). done.
Qed.

(** X2.  In every execution of a process the store holds at most one
    client: whatever address holds a client is the address in the cache
    slot, so any two client addresses are equal. *)
Theorem client_is_unique env acts c1 c2 :
  is_client (run acts (fresh_process env)) c1 = true →
  is_client (run acts (fresh_process env)) c2 = true →
  c1 = c2 ∧ supabase_cache (run acts (fresh_process env)) = Some c1.
Proof.
  assert (Hinv : ∀ c, is_client (run acts (fresh_process env)) c = true →
                      supabase_cache (run acts (fresh_process env)) = Some c).
  { apply (run_invariant
             (fun st => ∀ c, is_client st c = true
                             → supabase_cache st = Some c)).
    - intros st a Hinv c. destruct a; cbn [step]; try apply Hinv.
      + destruct (supabase_cases st) as [c' Hc|url key Hc|Hc|url key msg Hc];
          try apply Hinv.
        unfold is_client. cbn [heap supabase_cache]. intros Hcl.
        destruct (decide (c < length (heap st))) as [Hlt|Hge].
        * rewrite lookup_app_l in Hcl by done.
          specialize (Hinv c Hcl). congruence.
        * destruct (decide (c = length (heap st))) as [->|Hne]; [done|].
          rewrite lookup_ge_None_2 in Hcl; [done|].
          rewrite length_app. cbn [length]. lia.
      + rewrite http_session_call_spec.
        unfold is_client. cbn [heap supabase_cache snd]. intros Hcl.
        destruct (decide (c < length (heap st))) as [Hlt|Hge].
        * rewrite lookup_app_l in Hcl by done. by apply Hinv.
        * rewrite lookup_app_r in Hcl by lia.
          pose proof (session_objects_no_client (length (heap st))
                        (default 5%Z total_retries)
                        (default 1.25%float backoff_factor)
                        (c - length (heap st))) as Hno.
          destruct (session_objects _ _ _ !! _) as [[]|]; done.
    - intros c. unfold is_client. cbn [heap fresh_process].
      by rewrite lookup_nil. }
  intros H1 H2. pose proof (Hinv c1 H1) as E1. pose proof (Hinv c2 H2) as E2.
  split; [congruence|done].
Qed.

(** X3.  Neither helper writes to [os.environ]: after any execution the
    environment is the initial one with the caller's own assignments and
    deletions applied, whatever calls were made in between and whether
    they failed or not. *)
Theorem helpers_keep_environment acts st :
  environ (run acts st) = foldl env_update (environ st) acts.
Proof.
  revert st. induction acts as [|a acts IH]; intros st; [done|].
  cbn [run foldl]. fold (run acts (step st a)). rewrite IH. f_equal.
  destruct a; cbn [step env_update environ]; try done.
  - by destruct (supabase_cases st).
  - by rewrite http_session_call_spec.
Qed.

(** ** Further properties of the session factory *)

(** X4.  A call of [http_session], with any arguments given or left out,
    never raises and touches nothing but the store: it reads no
    environment variable, logs nothing, leaves the cache slot of
    [supabase] alone, and every object that was in the store is still
    there unchanged. *)
Theorem http_session_confined total_retries backoff_factor st :
  ∃ s st',
    http_session_call total_retries backoff_factor st = (Return s, st')
    ∧ environ st' = environ st
    ∧ supabase_cache st' = supabase_cache st
    ∧ trace st' = trace st
    ∧ ∀ i o, heap st !! i = Some o → heap st' !! i = Some o.
Proof.
  eexists _, _. split; [apply http_session_call_spec|].
  cbn [environ supabase_cache trace heap]. repeat split.
  intros i o Hi. by apply lookup_app_l_Some.
Qed.

(** X5.  A session keeps its adapters: after anything that happens
    later, further calls of [http_session] included, the session returned
    by a call has the same adapter and the same retry policy under every
    prefix as when it was returned. *)
Theorem http_session_stable total_retries backoff_factor st acts prefix :
  ∃ s st',
    http_session total_retries backoff_factor st = (Return s, st')
    ∧ mounted (run acts st') s prefix = mounted st' s prefix
    ∧ retry_policy (run acts st') s prefix = retry_policy st' s prefix.
Proof.
  destruct (http_session_mounted total_retries backoff_factor st "https://")
    as (st' & Hcall & _ & Ha & Hr); [by left|].
  exists (length (heap st)), st'. split; [exact Hcall|].
  assert (Hs : ∃ d, heap st' !! length (heap st) = Some (Session d)
                    ∧ ∀ a, dict_get prefix d = Some a
                           → a = length (heap st) + 6).
  { rewrite http_session_spec in Hcall. injection Hcall as <-.
    eexists. cbn [heap]. unfold session_objects.
    split; [by apply list_lookup_middle|].
    intros a. cbn [dict_get].
    destruct (String.eqb "https://" prefix); [congruence|].
    destruct (String.eqb "http://" prefix); congruence. }
  destruct Hs as (d & Hs & Hd).
  assert (Hm : mounted (run acts st') (length (heap st)) prefix
               = mounted st' (length (heap st)) prefix).
  { unfold mounted. by rewrite (run_lookup_stable acts st' _ _ Hs), Hs. }
  split; [exact Hm|].
  unfold retry_policy. rewrite Hm. unfold mounted. rewrite Hs.
  destruct (dict_get prefix d) as [a|] eqn:Hget; [|done].
  rewrite (Hd a eq_refl). cbn [mbind option_bind]. unfold retry_of.
  rewrite (run_lookup_stable acts st' _ _ Ha), Ha. cbn [mbind option_bind].
  by rewrite (run_lookup_stable acts st' _ _ Hr), Hr.
Qed.

(** X6.  Two sessions share nothing: the adapter and the retry policy
    object of a session returned by one call are different objects from
    those of a session returned by another call, under either prefix,
    whatever the arguments and whatever happens in between. *)
Theorem http_sessions_share_nothing st t1 b1 acts t2 b2 prefix1 prefix2 :
  prefix1 = "https://" ∨ prefix1 = "http://" →
  prefix2 = "https://" ∨ prefix2 = "http://" →
  ∃ s1 st1 s2 st2 a1 a2 r1 r2,
    http_session t1 b1 st = (Return s1, st1)
    ∧ http_session t2 b2 (run acts st1) = (Return s2, st2)
    ∧ mounted st2 s1 prefix1 = Some a1
    ∧ mounted st2 s2 prefix2 = Some a2
    ∧ retry_of st2 a1 = Some r1
    ∧ retry_of st2 a2 = Some r2
    ∧ a1 ≠ a2 ∧ r1 ≠ r2.
Proof.
  intros Hp1 Hp2.
  destruct (http_session_mounted t1 b1 st prefix1 Hp1)
    as (st1 & Hcall1 & Hm1 & Ha1 & Hr1).
  destruct (http_session_mounted t2 b2 (run acts st1) prefix2 Hp2)
    as (st2 & Hcall2 & Hm2 & Ha2 & Hr2).
  assert (Hkeep : ∀ i o, heap st1 !! i = Some o → heap st2 !! i = Some o).
  { intros i o Hi. apply (run_lookup_stable acts) in Hi.
    rewrite http_session_spec in Hcall2. injection Hcall2 as <-.
    cbn [heap]. by apply lookup_app_l_Some. }
  assert (Hlen : (length (heap st) + 7 ≤ length (heap (run acts st1)))%nat).
  { pose proof (prefix_length _ _ (run_heap_prefix acts st1)) as Hle.
    rewrite http_session_spec in Hcall1. injection Hcall1 as <-.
    cbn [heap] in Hle. rewrite length_app in Hle.
    cbn [session_objects length] in Hle. lia. }
  eexists _, st1, _, st2, _, _, _, _.
  split; [exact Hcall1|]. split; [exact Hcall2|].
  split.
  { unfold mounted in *.
    destruct (heap st1 !! length (heap st)) as [o|] eqn:Hs; [|done].
    by rewrite (Hkeep _ _ Hs). }
  split; [exact Hm2|].
  split; [unfold retry_of; by rewrite (Hkeep _ _ Ha1)|].
  split; [unfold retry_of; by rewrite Ha2|].
  split; lia.
Qed.

(** X7.  Calls of [http_session] do not change what [supabase] gives:
    in every execution, a call of [supabase] made right after a call of
    [http_session] raises the same error, or returns a client bound to the
    same URL and key, as it would have without that call. *)
Theorem supabase_unaffected_by_http_session env acts t b :
  supabase_result (step (run acts (fresh_process env)) (CallHttpSession t b))
  = supabase_result (run acts (fresh_process env)).
Proof.
  pose proof (run_cache_consistent acts _ (fresh_process_consistent env))
    as Hinv.
  set (st := run acts (fresh_process env)) in *.
  cbn [step]. rewrite http_session_call_spec. cbn [snd].
  set (st' := Process _ _ _ _).
  unfold supabase_result.
  destruct (supabase_cache st) as [c|] eqn:Hcache.
  - rewrite (supabase_hit st c Hcache), (supabase_hit st' c eq_refl).
    unfold cache_consistent in Hinv. rewrite Hcache in Hinv.
    destruct Hinv as [_ Hcl]. unfold is_client in Hcl.
    destruct (heap st !! c) as [o|] eqn:Ho; [|done].
    subst st'. cbn [heap]. by rewrite (lookup_app_l_Some _ _ _ _ Ho).
  - destruct (has_credentials (environ st)) eqn:Hcred.
    + destruct (has_credentials_values _ Hcred)
        as (url & key & Hu & _ & Hk & _).
      destruct (client_error url key) as [msg|] eqn:Hlib.
      * by rewrite (supabase_miss_rejected st url key msg),
          (supabase_miss_rejected st' url key msg).
      * rewrite (supabase_miss_ok st url key), (supabase_miss_ok st' url key)
          by done.
        cbn [heap]. by rewrite !list_lookup_middle.
    + by rewrite (supabase_miss_fail st), (supabase_miss_fail st').
Qed.

(** ** Further properties of the key loop *)

Lemma logged_nil st : logged st [] = st.
Proof. destruct st. unfold logged. cbn. by rewrite app_nil_r. Qed.

Lemma logged_logged st evs1 evs2 :
  logged (logged st evs1) evs2 = logged st (evs1 ++ evs2).
Proof. unfold logged. cbn. by rewrite app_assoc. Qed.

Lemma key_loop_cons name rest key st :
  key_loop (name :: rest) key st
  = if truthy (environ st !! name)
    then (Return (environ st !! name), logged st [EvGetenv name])
    else key_loop rest (environ st !! name) (logged st [EvGetenv name]).
Proof.
  cbn [key_loop]. cbv [bind mbind py_bind getenv ret].
  fold (logged st [EvGetenv name]).
  by destruct (truthy (environ st !! name)).
Qed.

(** X8.  Over any list of variable names, the loop returns the value of
    the first name whose variable is set and not empty, whatever the key
    it started with, and it reads the names up to that one and none of
    those behind it. *)
Theorem key_loop_first_nonempty st (before after : list string) name key :
  Forall (fun n => truthy (environ st !! n) = false) before →
  truthy (environ st !! name) = true →
  key_loop (before ++ name :: after) key st
  = (Return (environ st !! name),
     logged st (EvGetenv <$> (before ++ [name]))).
Proof.
  intros Hbefore Hname. revert st key Hbefore Hname.
  induction before as [|n before IH]; intros st key Hbefore Hname.
  - cbn [app fmap list_fmap]. by rewrite key_loop_cons, Hname.
  - apply Forall_cons in Hbefore as [Hn Hbefore].
    cbn [app]. rewrite key_loop_cons, Hn.
    rewrite (IH (logged st [EvGetenv n])) by done.
    by rewrite logged_logged.
Qed.

(** X9.  When none of the names has a variable that is set and not empty,
    and the loop started without a key, it reads every name once, in
    order, and ends with a key that fails the credentials test: [None] or
    the empty string. *)
Theorem key_loop_none_nonempty st (names : list string) key :
  Forall (fun n => truthy (environ st !! n) = false) names →
  truthy key = false →
  ∃ k,
    key_loop names key st = (Return k, logged st (EvGetenv <$> names))
    ∧ truthy k = false.
Proof.
  intros Hnames. revert st key Hnames.
  induction names as [|n names IH]; intros st key Hnames Hkey.
  - exists key. cbn [key_loop fmap list_fmap]. by rewrite logged_nil.
  - apply Forall_cons in Hnames as [Hn Hnames].
    destruct (IH (logged st [EvGetenv n]) (environ st !! n) Hnames Hn)
      as (k & Hloop & Hk).
    exists k. split; [|done].
    by rewrite key_loop_cons, Hn, Hloop, logged_logged.
Qed.

(** ** Properties of the import *)

Lemma import_module_returns dotenv env i :
  import_module dotenv env = Return i →
  basicConfig_level i = getenv_default env "LOG_LEVEL" "INFO"
  ∧ imported_process i = fresh_process (env ∪ dotenv).
Proof.
  unfold import_module, load_dotenv.
  destruct (_checkLevel _); [|discriminate]. by intros [= <-].
Qed.

(** X10.  The log level is fixed before the [.env] file is read: when
    [LOG_LEVEL] is not set in the environment of the process, the import
    goes through and the level handed to [logging.basicConfig] is ["INFO"]
    whatever the file binds, although after the import [os.environ] holds
    the [LOG_LEVEL] of the file. *)
Theorem log_level_ignores_dotenv dotenv env :
  env !! "LOG_LEVEL" = None →
  ∃ i,
    import_module dotenv env = Return i
    ∧ basicConfig_level i = "INFO"
    ∧ environ (imported_process i) !! "LOG_LEVEL" = dotenv !! "LOG_LEVEL".
Proof.
  intros Hunset. eexists.
  unfold import_module, getenv_default. rewrite Hunset. cbn [default].
  split; [reflexivity|]. split; [reflexivity|].
  cbn [imported_process fresh_process environ]. by apply lookup_union_r.
Qed.

(** X11.  Credentials that only the [.env] file gives are enough: when
    the import goes through, the process environment sets none of the
    three variables, and the file binds a non-empty URL and a non-empty
    key that [create_client] accepts, the first call of [supabase] after
    the import returns a client bound to the URL of the file and to the
    key the file resolves to. *)
Theorem dotenv_credentials_suffice dotenv env i :
  import_module dotenv env = Return i →
  env !! "SUPABASE_URL" = None →
  env !! "SUPABASE_SERVICE_ROLE_KEY" = None →
  env !! "SUPABASE_KEY" = None →
  has_credentials dotenv = true →
  library_accepts dotenv = true →
  ∃ c st' url key,
    supabase (imported_process i) = (Return c, st')
    ∧ heap st' !! c = Some (Client url key)
    ∧ dotenv !! "SUPABASE_URL" = Some url
    ∧ resolved_key dotenv = Some key.
Proof.
  intros Himport Hu Hp Hf Hcred Hacc.
  destruct (import_module_returns _ _ _ Himport) as [_ ->].
  destruct (has_credentials_values _ Hcred) as (url & key & Hurl & _ & Hkey & _).
  pose proof (library_accepts_values _ url key Hacc Hurl Hkey) as Hok.
  set (st := fresh_process (env ∪ dotenv)).
  assert (Hlook : ∀ name, env !! name = None →
                          environ st !! name = dotenv !! name).
  { intros name Hname. by apply lookup_union_r. }
  assert (Hres : resolved_key (environ st) = resolved_key dotenv).
  { unfold resolved_key. by rewrite !Hlook. }
  assert (Hcred' : has_credentials (environ st) = true).
  { unfold has_credentials. rewrite !Hlook by done. exact Hcred. }
  eexists _, _, url, key. split.
  - apply (supabase_miss_ok st url key); [done| |congruence|done|done].
    by rewrite Hlook.
  - split; [|done]. cbn [heap]. by apply list_lookup_middle.
Qed.

(** X12.  A variable of the process environment is never replaced by the
    [.env] file, not even an empty one: when the import goes through and
    the process sets [SUPABASE_URL] to the empty string, or both key
    variables to the empty string, the first call of [supabase] after the
    import raises the configuration error whatever the file binds. *)
Theorem empty_variable_shadows_dotenv dotenv env i :
  import_module dotenv env = Return i →
  env !! "SUPABASE_URL" = Some ""
  ∨ (env !! "SUPABASE_SERVICE_ROLE_KEY" = Some ""
     ∧ env !! "SUPABASE_KEY" = Some "") →
  ∃ st',
    supabase (imported_process i)
    = (Raise (RuntimeError MISSING_CREDENTIALS), st').
Proof.
  intros Himport Hempty.
  destruct (import_module_returns _ _ _ Himport) as [_ ->].
  eexists. apply supabase_miss_fail; [done|].
  cbn [environ fresh_process]. unfold has_credentials.
  destruct Hempty as [Hu|[Hp Hf]].
  - by rewrite (lookup_union_Some_l _ _ _ _ Hu).
  - rewrite (lookup_union_Some_l _ _ _ _ Hp), (lookup_union_Some_l _ _ _ _ Hf).
    cbn [truthy orb]. apply andb_false_r.
Qed.


(** ** The library turning the credentials down *)

(** X13.  When the credentials are there but [create_client] raises, the
    error of the library reaches the caller as it is, no client is cached
    or stored and no construction is recorded, so that a later call tries
    again; the call of [logger.debug] announcing the client has been made
    all the same. *)
Theorem supabase_rejection_not_cached st url key msg :
  supabase_cache st = None →
  has_credentials (environ st) = true →
  environ st !! "SUPABASE_URL" = Some url →
  resolved_key (environ st) = Some key →
  client_error url key = Some msg →
  ∃ st',
    supabase st = (Raise (SupabaseException msg), st')
    ∧ supabase_cache st' = None
    ∧ heap st' = heap st
    ∧ environ st' = environ st
    ∧ constructions (trace st') = constructions (trace st)
    ∧ last (logged_args (trace st')) = Some url.
Proof.
  intros Hcache Hcred Hu Hk Hno. eexists.
  split; [by apply (supabase_miss_rejected st url key msg)|].
  cbn [logged supabase_cache heap environ trace].
  split; [done|]. split; [done|]. split; [done|]. split.
  - rewrite constructions_app, constructions_attempt_events. lia.
  - rewrite logged_args_app.
    destruct (attempt_events_logged (environ st) url) as [-> _].
    by rewrite last_snoc.
Qed.

End Library.

(** ** Sample runs

    The statements above at concrete processes, with [supabase_py_error]
    for the library. *)

Lemma supabase_singleton_witness :
  ∃ c st1 url key,
    supabase supabase_py_error (fresh_process env0) = (Return c, st1)
    ∧ environ (fresh_process env0) !! "SUPABASE_URL" = Some url
    ∧ heap st1 !! c = Some (Client url key)
    ∧ ∀ acts,
        supabase supabase_py_error (run supabase_py_error acts st1)
        = (Return c, run supabase_py_error acts st1)
        ∧ heap (run supabase_py_error acts st1) !! c
          = Some (Client url key).
Proof.
  apply (supabase_singleton supabase_py_error (fresh_process env0));
    reflexivity.
Defined.

(** C1, as stated: with the URL variable and a key variable set and not
    empty the first call returns a client.  It fails when the library
    turns the values down: a URL without scheme makes [create_client]
    raise, and the call passes the error on with nothing cached. *)
Lemma supabase_singleton_counterexample :
  supabase_cache (fresh_process env_no_scheme) = None
  ∧ has_credentials (environ (fresh_process env_no_scheme)) = true
  ∧ ∃ st',
      supabase supabase_py_error (fresh_process env_no_scheme)
      = (Raise (SupabaseException "Invalid URL"), st')
      ∧ supabase_cache st' = None
      ∧ heap st' = [].
Proof.
  split; [reflexivity|]. split; [reflexivity|].
  eexists. split; [reflexivity|]. by split.
Qed.

(** C2, as stated: whenever the environment lacks the URL or both keys, a
    call raises.  It fails once a client is cached: the call returns the
    cached client without looking at the environment. *)
Lemma supabase_missing_credentials_counterexample :
  has_credentials (environ (cached_then_cleared supabase_py_error)) = false
  ∧ environ (cached_then_cleared supabase_py_error) !! "SUPABASE_URL" = None
  ∧ supabase supabase_py_error (cached_then_cleared supabase_py_error)
    = (Return 0, cached_then_cleared supabase_py_error)
  ∧ ¬ ∃ e st',
        supabase supabase_py_error (cached_then_cleared supabase_py_error)
        = (Raise e, st').
Proof.
  split; [reflexivity|]. split; [reflexivity|].
  assert (Hhit : ∀ st, supabase_cache st = Some 0 →
                       supabase supabase_py_error st = (Return 0, st))
    by (intros st; apply supabase_hit).
  split; [by apply Hhit|].
  intros (e & st' & Hraise). by rewrite Hhit in Hraise.
Qed.

Lemma supabase_missing_credentials_witness :
  ∃ st',
    supabase supabase_py_error (fresh_process (delete "SUPABASE_URL" env1))
    = (Raise (RuntimeError MISSING_CREDENTIALS), st')
    ∧ heap st' = heap (fresh_process (delete "SUPABASE_URL" env1))
    ∧ supabase_cache st' = None.
Proof.
  apply (supabase_missing_credentials supabase_py_error
           (fresh_process (delete "SUPABASE_URL" env1))); reflexivity.
Defined.

Lemma supabase_failure_not_cached_witness :
  (∃ e st1,
     supabase supabase_py_error (fresh_process ∅) = (Raise e, st1)
     ∧ supabase_cache st1 = supabase_cache (fresh_process ∅)
     ∧ heap st1 = heap (fresh_process ∅)
     ∧ constructions (trace st1) = constructions (trace (fresh_process ∅))
     ∧ ∀ acts,
         forallb (fun a => negb (is_supabase_call a)) acts = true →
         has_credentials (environ (run supabase_py_error acts st1)) = true →
         library_accepts supabase_py_error
           (environ (run supabase_py_error acts st1)) = true →
         ∃ c st3,
           supabase supabase_py_error (run supabase_py_error acts st1)
           = (Return c, st3)
           ∧ is_client st3 c = true
           ∧ supabase_cache st3 = Some c
           ∧ constructions (trace st3)
             = S (constructions (trace (run supabase_py_error acts st1))))
  ∧ ∀ env acts,
      (constructions (trace (run supabase_py_error acts (fresh_process env)))
       ≤ 1)%nat.
Proof.
  apply (supabase_failure_not_cached supabase_py_error (fresh_process ∅));
    reflexivity.
Defined.

(** C3, as stated: after a failed first call, a call made with credentials
    present succeeds.  It fails when the library turns the new values
    down: the call runs [create_client], which raises, and again nothing
    is cached. *)
Lemma supabase_failure_not_cached_counterexample :
  (supabase supabase_py_error (fresh_process ∅)).1
  = Raise (RuntimeError MISSING_CREDENTIALS)
  ∧ has_credentials (environ (retried_without_scheme supabase_py_error))
    = true
  ∧ ∃ st',
      supabase supabase_py_error (retried_without_scheme supabase_py_error)
      = (Raise (SupabaseException "Invalid URL"), st')
      ∧ supabase_cache st' = None.
Proof.
  split; [reflexivity|]. split; [reflexivity|].
  eexists. split; reflexivity.
Qed.

(** The retry of C3 on a concrete execution: a failing call, then the two
    variables are set, then a call that builds the client. *)
Example supabase_retry_example :
  let st1 := run supabase_py_error [CallSupabase] (fresh_process ∅) in
  let st2 := run supabase_py_error
                 [SetEnv "SUPABASE_URL" "https://x.supabase.co";
                  SetEnv "SUPABASE_KEY" "anon.jwt.sig"] st1 in
  (supabase supabase_py_error (fresh_process ∅)).1
  = Raise (RuntimeError MISSING_CREDENTIALS)
  ∧ supabase_cache st1 = None
  ∧ (supabase supabase_py_error st2).1 = Return 0
  ∧ heap (supabase supabase_py_error st2).2
    = [Client "https://x.supabase.co" "anon.jwt.sig"].
Proof. cbv zeta. by repeat split. Qed.

Lemma supabase_key_resolution_witness :
  key_loop SUPABASE_KEY_ENV_FALLBACKS None (fresh_process env1)
  = (Return (Some "service.jwt.sig"),
     logged (fresh_process env1)
       (if truthy (environ (fresh_process env1) !! "SUPABASE_SERVICE_ROLE_KEY")
        then [EvGetenv "SUPABASE_SERVICE_ROLE_KEY"]
        else [EvGetenv "SUPABASE_SERVICE_ROLE_KEY"; EvGetenv "SUPABASE_KEY"]))
  ∧ (supabase_cache (fresh_process env1) = None →
     truthy (environ (fresh_process env1) !! "SUPABASE_URL") = true →
     library_accepts supabase_py_error (environ (fresh_process env1)) = true →
     ∃ c st', supabase supabase_py_error (fresh_process env1) = (Return c, st')
              ∧ client_key st' c = Some "service.jwt.sig").
Proof.
  apply (supabase_key_resolution supabase_py_error (fresh_process env1)
           "service.jwt.sig").
  left. split; [reflexivity|discriminate].
Defined.

(** C4, as stated: in every environment where the preferred key is set and
    not empty, its value is the one used.  It fails once a client is
    cached: the call resolves nothing and returns the client bound to the
    key of the first call. *)
Lemma supabase_key_resolution_counterexample :
  environ (cached_then_primary_set supabase_py_error)
    !! "SUPABASE_SERVICE_ROLE_KEY" = Some "service.jwt.sig"
  ∧ ∃ c st',
      supabase supabase_py_error (cached_then_primary_set supabase_py_error)
      = (Return c, st')
      ∧ client_key st' c = Some "anon.jwt.sig"
      ∧ trace st' = trace (cached_then_primary_set supabase_py_error).
Proof.
  split; [reflexivity|]. eexists _, _. split; [reflexivity|]. by split.
Qed.

(** The two cases of C4 on concrete environments: both keys set, and only
    the fallback set next to an empty preferred key. *)
Example supabase_key_examples :
  client_key (supabase supabase_py_error (fresh_process env1)).2 0
  = Some "service.jwt.sig"
  ∧ client_key (supabase supabase_py_error (fresh_process env0)).2 0
    = Some "anon.jwt.sig"
  ∧ client_key
      (supabase supabase_py_error
         (fresh_process (<["SUPABASE_SERVICE_ROLE_KEY" := ""]> env0))).2 0
    = Some "anon.jwt.sig".
Proof. by repeat split. Qed.

(** C5, as stated: the message of the error names the URL variable and the
    key variable.  The message raised names no key variable. *)
Lemma supabase_error_message_counterexample :
  ∃ msg st',
    supabase supabase_py_error (fresh_process ∅)
    = (Raise (RuntimeError msg), st')
    ∧ ¬ names_required_variables msg.
Proof.
  eexists _, _. split; [reflexivity|].
  intros [_ (name & Hin & Hname)].
  apply list_elem_of_In in Hin. cbn [SUPABASE_KEY_ENV_FALLBACKS In] in Hin.
  destruct Hin as [<-|[<-|[]]]; vm_compute in Hname; discriminate.
Qed.

Lemma supabase_error_message_witness :
  MISSING_CREDENTIALS = MISSING_CREDENTIALS
  ∧ contains SUPABASE_URL_ENV MISSING_CREDENTIALS = true
  ∧ contains "a service/anon key" MISSING_CREDENTIALS = true
  ∧ ∀ name, name ∈ SUPABASE_KEY_ENV_FALLBACKS →
            contains name MISSING_CREDENTIALS = false.
Proof.
  apply (supabase_error_message supabase_py_error (fresh_process ∅) _
           (logged (fresh_process ∅)
                   [EvGetenv "SUPABASE_URL";
                    EvGetenv "SUPABASE_SERVICE_ROLE_KEY";
                    EvGetenv "SUPABASE_KEY"])).
  reflexivity.
Defined.

Lemma client_is_unique_witness :
  0 = 0
  ∧ supabase_cache (run supabase_py_error [CallSupabase] (fresh_process env0))
    = Some 0.
Proof.
  apply (client_is_unique supabase_py_error env0 [CallSupabase] 0 0);
    reflexivity.
Defined.

Lemma http_sessions_share_nothing_witness :
  ∃ s1 st1 s2 st2 a1 a2 r1 r2,
    http_session 5 1.25 (fresh_process ∅) = (Return s1, st1)
    ∧ http_session 3 2.5 (run supabase_py_error [CallSupabase] st1)
      = (Return s2, st2)
    ∧ mounted st2 s1 "https://" = Some a1
    ∧ mounted st2 s2 "http://" = Some a2
    ∧ retry_of st2 a1 = Some r1
    ∧ retry_of st2 a2 = Some r2
    ∧ a1 ≠ a2 ∧ r1 ≠ r2.
Proof.
  apply (http_sessions_share_nothing supabase_py_error (fresh_process ∅)
           5 1.25 [CallSupabase] 3 2.5 "https://" "http://").
  - left. reflexivity.
  - right. reflexivity.
Defined.

Lemma key_loop_first_nonempty_witness :
  key_loop (["A"; "SUPABASE_SERVICE_ROLE_KEY"] ++ "SUPABASE_KEY" :: ["B"])
           (Some "stale") (fresh_process env0)
  = (Return (environ (fresh_process env0) !! "SUPABASE_KEY"),
     logged (fresh_process env0)
       (EvGetenv <$> (["A"; "SUPABASE_SERVICE_ROLE_KEY"] ++ ["SUPABASE_KEY"]))).
Proof.
  apply (key_loop_first_nonempty (fresh_process env0)
           ["A"; "SUPABASE_SERVICE_ROLE_KEY"] ["B"] "SUPABASE_KEY"
           (Some "stale")).
  - repeat constructor.
  - reflexivity.
Defined.

Lemma key_loop_none_nonempty_witness :
  ∃ k,
    key_loop SUPABASE_KEY_ENV_FALLBACKS None
             (fresh_process (<["SUPABASE_KEY" := ""]> ∅))
    = (Return k,
       logged (fresh_process (<["SUPABASE_KEY" := ""]> ∅))
              (EvGetenv <$> SUPABASE_KEY_ENV_FALLBACKS))
    ∧ truthy k = false.
Proof.
  apply (key_loop_none_nonempty
           (fresh_process (<["SUPABASE_KEY" := ""]> ∅))
           SUPABASE_KEY_ENV_FALLBACKS None).
  - repeat constructor.
  - reflexivity.
Defined.

Lemma log_level_ignores_dotenv_witness :
  ∃ i,
    import_module {["LOG_LEVEL" := "DEBUG"]} env0 = Return i
    ∧ basicConfig_level i = "INFO"
    ∧ environ (imported_process i) !! "LOG_LEVEL"
      = ({["LOG_LEVEL" := "DEBUG"]} : gmap string string) !! "LOG_LEVEL".
Proof.
  apply (log_level_ignores_dotenv {["LOG_LEVEL" := "DEBUG"]} env0).
  reflexivity.
Defined.

Lemma dotenv_credentials_suffice_witness :
  ∃ c st' url key,
    supabase supabase_py_error (fresh_process (∅ ∪ env1)) = (Return c, st')
    ∧ heap st' !! c = Some (Client url key)
    ∧ env1 !! "SUPABASE_URL" = Some url
    ∧ resolved_key env1 = Some key.
Proof.
  apply (dotenv_credentials_suffice supabase_py_error env1 ∅
           (Imported "INFO" (fresh_process (∅ ∪ env1)))); reflexivity.
Defined.

Lemma empty_variable_shadows_dotenv_witness :
  ∃ st',
    supabase supabase_py_error
      (fresh_process (<["SUPABASE_URL" := ""]> ∅ ∪ env1))
    = (Raise (RuntimeError MISSING_CREDENTIALS), st').
Proof.
  apply (empty_variable_shadows_dotenv supabase_py_error env1
           (<["SUPABASE_URL" := ""]> ∅)
           (Imported "INFO"
              (fresh_process (<["SUPABASE_URL" := ""]> ∅ ∪ env1)))).
  - reflexivity.
  - left. reflexivity.
Defined.

Lemma supabase_rejection_not_cached_witness :
  ∃ st',
    supabase supabase_py_error (fresh_process env_no_scheme)
    = (Raise (SupabaseException "Invalid URL"), st')
    ∧ supabase_cache st' = None
    ∧ heap st' = heap (fresh_process env_no_scheme)
    ∧ environ st' = environ (fresh_process env_no_scheme)
    ∧ constructions (trace st')
      = constructions (trace (fresh_process env_no_scheme))
    ∧ last (logged_args (trace st')) = Some "x.supabase.co".
Proof.
  apply (supabase_rejection_not_cached supabase_py_error
           (fresh_process env_no_scheme) "x.supabase.co" "anon.jwt.sig"
           "Invalid URL"); reflexivity.
Defined.

(** Level names are upper case: an empty or lower-case [LOG_LEVEL] stops
    the import, a level name lets it through. *)
Example import_level_examples :
  import_module ∅ (<["LOG_LEVEL" := "debug"]> ∅) = Raise (ValueError "debug")
  ∧ import_module env0 (<["LOG_LEVEL" := ""]> ∅) = Raise (ValueError "")
  ∧ basicConfig_level <$>
      match import_module ∅ (<["LOG_LEVEL" := "DEBUG"]> ∅) with
      | Return i => Some i
      | Raise _ => None
      end = Some "DEBUG".
Proof. by repeat split. Qed.
